(** * Sentinel-Audit: the audit decision engine of [api/index.py]

    Shallow embedding of [check_for_banned_keywords], [check_refund_amount]
    and the body of [audit_request] after the request has been decoded, on
    the Python values that [request.get_json()] produces. *)

From Stdlib Require Import ZArith QArith List Bool Ascii String.
From Stdlib Require Import Numbers.DecimalString Lia.
Import ListNotations.
Open Scope string_scope.
Set Warnings "-register-all".

(* ------------------------------------------------------------------ *)
(** ** Python values *)

(** A Python float: finite doubles are kept as their exact (dyadic)
    rational value; the signed zero, the infinities and NaN are
    separate. *)
Inductive pyfloat :=
| PFin (q : Q)
| PNegZero
| PInf
| PNegInf
| PNaN.

(** The values [json.loads] builds: [None], [bool], [int], [float], [str],
    [list] and [dict] (its items in insertion order). *)
Inductive json :=
| JNull
| JBool (b : bool)
| JInt (z : Z)
| JFloat (f : pyfloat)
| JStr (s : string)
| JList (l : list json)
| JObj (kvs : list (string * json)).

(** The exceptions the engine can raise. *)
Inductive exn := TypeError | ValueError | OverflowError | KeyError.

(** A Python computation: a value or a raised exception. *)
Inductive res (A : Type) :=
| Ok (a : A)
| Raise (e : exn).
Arguments Ok {A} a.
Arguments Raise {A} e.

Definition bind {A B} (m : res A) (k : A -> res B) : res B :=
  match m with Ok a => k a | Raise e => Raise e end.
Notation "x <- m ;; k" := (bind m (fun x => k))
  (at level 61, m at next level, right associativity).

(* ------------------------------------------------------------------ *)
(** ** Characters and strings (code points U+0000..U+00FF) *)

Definition code (c : ascii) : nat := nat_of_ascii c.
Definition chr (n : nat) : ascii := ascii_of_nat n.
Definition dq : string := String (chr 34) EmptyString.
Definition sq : string := String (chr 39) EmptyString.
Definition bs : string := String (chr 92) EmptyString.

(** [str.lower] on Latin-1 code points. *)
Definition lower_char (c : ascii) : ascii :=
  let n := code c in
  if ((65 <=? n) && (n <=? 90))%nat then chr (n + 32)
  else if ((192 <=? n) && (n <=? 222) && negb (n =? 215))%nat then chr (n + 32)
  else c.

Fixpoint lower (s : string) : string :=
  match s with
  | EmptyString => EmptyString
  | String c r => String (lower_char c) (lower r)
  end.

(** [needle in hay] for two [str]s. *)
Fixpoint str_in (needle hay : string) : bool :=
  prefix needle hay ||
  match hay with
  | EmptyString => false
  | String _ r => str_in needle r
  end.

(** [str(n)] for an [int]. *)
Definition Z_to_string (z : Z) : string :=
  NilEmpty.string_of_int (Z.to_int z).

(** Lower-case hexadecimal digit. *)
Definition hex_digit (n : nat) : ascii :=
  if (n <? 10)%nat then chr (48 + n) else chr (87 + n).

(** [str.isprintable] on Latin-1 code points. *)
Definition printable (n : nat) : bool :=
  ((32 <=? n) && (n <=? 126))%nat || ((161 <=? n) && negb (n =? 173))%nat.

(** One character inside the quotes of [repr(s)] quoted with [quote]. *)
Definition repr_char (quote : nat) (c : ascii) : string :=
  let n := code c in
  if (n =? 92)%nat then bs ++ bs
  else if (n =? quote)%nat then bs ++ String c EmptyString
  else if (n =? 9)%nat then bs ++ "t"
  else if (n =? 10)%nat then bs ++ "n"
  else if (n =? 13)%nat then bs ++ "r"
  else if printable n then String c EmptyString
  else bs ++ String "x"%char
         (String (hex_digit (n / 16)) (String (hex_digit (n mod 16)) EmptyString)).

Fixpoint has_char (n : nat) (s : string) : bool :=
  match s with
  | EmptyString => false
  | String c r => (code c =? n)%nat || has_char n r
  end.

Fixpoint repr_chars (quote : nat) (s : string) : string :=
  match s with
  | EmptyString => EmptyString
  | String c r => repr_char quote c ++ repr_chars quote r
  end.

(** [repr(s)] for a [str]: single quotes unless the text holds a single
    quote and no double quote. *)
Definition repr_str (s : string) : string :=
  let quote := if has_char 39 s && negb (has_char 34 s) then 34%nat else 39%nat in
  let q := String (chr quote) EmptyString in
  q ++ repr_chars quote s ++ q.

Fixpoint concat_sep (sep : string) (l : list string) : string :=
  match l with
  | [] => EmptyString
  | [x] => x
  | x :: r => x ++ sep ++ concat_sep sep r
  end.

(* ------------------------------------------------------------------ *)
(** ** [float()]: rounding to the nearest double *)

(** [n / d] rounded to an integer, ties to even ([d > 0], [n >= 0]). *)
Definition round_half_even (n d : Z) : Z :=
  let q := (n / d)%Z in
  let r := (n mod d)%Z in
  if (2 * r <? d)%Z then q
  else if (d <? 2 * r)%Z then (q + 1)%Z
  else if Z.even q then q else (q + 1)%Z.

(** [n * 2^k] as an integer fraction [num, den] for any sign of [k]. *)
Definition scale2 (n d k : Z) : Z * Z :=
  if (0 <=? k)%Z then ((n * 2 ^ k)%Z, d) else (n, (d * 2 ^ (- k))%Z).

(** Round the positive rational [n / d] to the nearest double (53-bit
    significand, subnormals down to [2^-1074], ties to even). Results at or
    above [2^1024] are the infinity. *)
Definition round_pos_double (n d : Z) : pyfloat :=
  let e := (Z.log2 n - Z.log2 d)%Z in
  let '(n1, d1) := scale2 n d (- e) in
  let fl := if (d1 <=? n1)%Z then e else (e - 1)%Z in
  let s := Z.min (52 - fl) 1074 in
  let '(n2, d2) := scale2 n d s in
  let m := round_half_even n2 d2 in
  let v := if (0 <=? s)%Z then Qmake m (Z.to_pos (2 ^ s)) else inject_Z (m * 2 ^ (- s)) in
  if Qle_bool (inject_Z (2 ^ 1024)) v then PInf else PFin (Qred v).

Definition neg_float (f : pyfloat) : pyfloat :=
  match f with
  | PFin q => if Qeq_bool q 0 then PNegZero else PFin (- q)
  | PNegZero => PFin 0
  | PInf => PNegInf
  | PNegInf => PInf
  | PNaN => PNaN
  end.

(** The double nearest to an exact rational. *)
Definition double_of_Q (q : Q) : pyfloat :=
  let n := Qnum q in
  let d := Zpos (Qden q) in
  if (n =? 0)%Z then PFin 0
  else if (0 <? n)%Z then round_pos_double n d
  else neg_float (round_pos_double (- n) d).

(** [float(n)] for an [int]: raises [OverflowError] ("int too large to
    convert to float") when the rounded value is not finite. *)
Definition int_to_float (z : Z) : res pyfloat :=
  match double_of_Q (inject_Z z) with
  | PInf | PNegInf => Raise OverflowError
  | f => Ok f
  end.

(* ------------------------------------------------------------------ *)
(** ** [float()] on a [str] *)

Definition is_digit (c : ascii) : bool := ((48 <=? code c) && (code c <=? 57))%nat.

(** [Py_UNICODE_ISSPACE] on Latin-1 code points. *)
Definition is_space (c : ascii) : bool :=
  let n := code c in
  ((9 <=? n) && (n <=? 13))%nat || ((28 <=? n) && (n <=? 32))%nat
  || (n =? 133)%nat || (n =? 160)%nat.

Fixpoint drop_spaces (l : list ascii) : list ascii :=
  match l with
  | c :: r => if is_space c then drop_spaces r else l
  | [] => []
  end.

Definition strip (l : list ascii) : list ascii :=
  rev (drop_spaces (rev (drop_spaces l))).

(** [_Py_string_to_number_with_underscores]: an underscore must sit
    between two digits; the underscores are then removed. *)
Fixpoint remove_underscores (prev_digit : bool) (l : list ascii) : option (list ascii) :=
  match l with
  | [] => Some []
  | c :: r =>
      if (code c =? 95)%nat then
        if prev_digit && match r with d :: _ => is_digit d | [] => false end
        then remove_underscores false r else None
      else option_map (cons c) (remove_underscores (is_digit c) r)
  end.

(** Reads a run of digits into [acc]; returns the value, the number of
    digits read and the rest. *)
Fixpoint read_digits (l : list ascii) (acc : Z) (cnt : nat) : Z * nat * list ascii :=
  match l with
  | c :: r => if is_digit c
              then read_digits r (acc * 10 + Z.of_nat (code c - 48))%Z (S cnt)
              else (acc, cnt, l)
  | [] => (acc, cnt, l)
  end.

Definition lower_list (l : list ascii) : list ascii := map lower_char l.

(** [_Py_parse_inf_or_nan] after the sign. *)
Definition parse_special (l : list ascii) : option pyfloat :=
  let w := string_of_list_ascii (lower_list l) in
  if String.eqb w "inf" || String.eqb w "infinity" then Some PInf
  else if String.eqb w "nan" then Some PNaN
  else None.

(** [m * 10^k] rounded to a double; magnitudes far outside the double
    range are sent straight to the infinity or to zero. *)
Definition decimal_to_double (m k : Z) : pyfloat :=
  if (m =? 0)%Z then PFin 0
  else if (310 <? k)%Z then PInf
  else if (Z.log2 m + 1 + k <? -330)%Z then PFin 0
  else if (0 <=? k)%Z then double_of_Q (inject_Z (m * 10 ^ k))
  else double_of_Q (Qmake m (Z.to_pos (10 ^ (- k)))).

(** Decimal literal after the sign: [digits [. digits] [e [sign] digits]]
    with at least one mantissa digit, consuming the whole text. *)
Definition parse_decimal (l : list ascii) : option pyfloat :=
  let '(m1, c1, r1) := read_digits l 0 0 in
  let '(m2, c2, r2) :=
    match r1 with
    | c :: r => if (code c =? 46)%nat then read_digits r m1 0 else (m1, 0%nat, r1)
    | [] => (m1, 0%nat, r1)
    end in
  if (c1 + c2 =? 0)%nat then None else
  let exp :=
    match r2 with
    | [] => Some 0%Z
    | e :: r =>
        if (code e =? 101)%nat || (code e =? 69)%nat then
          let '(sg, r') := match r with
                           | c :: r' => if (code c =? 45)%nat then (-1, r')%Z
                                        else if (code c =? 43)%nat then (1%Z, r')
                                        else (1%Z, r)
                           | [] => (1%Z, r)
                           end in
          let '(x, cx, rx) := read_digits r' 0 0 in
          match rx, cx with
          | [], S _ => Some (sg * x)%Z
          | _, _ => None
          end
        else None
    end in
  match exp with
  | Some x => Some (decimal_to_double m2 (x - Z.of_nat c2))
  | None => None
  end.

(** [float(s)] for a [str]; [None] is the [ValueError]. *)
Definition float_of_str (s : string) : option pyfloat :=
  match remove_underscores false (strip (list_ascii_of_string s)) with
  | None => None
  | Some l =>
      let '(neg, body) :=
        match l with
        | c :: r => if (code c =? 45)%nat then (true, r)
                    else if (code c =? 43)%nat then (false, r) else (false, l)
        | [] => (false, l)
        end in
      let v := match parse_special body with
               | Some f => Some f
               | None => parse_decimal body
               end in
      if neg then option_map neg_float v else v
  end.

(** [format(f, '.2f')]: the exact value rounded to two decimals, ties to
    even. *)
Definition fmt_2f (f : pyfloat) : string :=
  match f with
  | PFin q =>
      let n := Qnum q in
      let r := round_half_even (Z.abs n * 100) (Zpos (Qden q)) in
      let fp := (r mod 100)%Z in
      (if (n <? 0)%Z then "-" else "")
        ++ Z_to_string (r / 100) ++ "."
        ++ (if (fp <? 10)%Z then "0" else "") ++ Z_to_string fp
  | PNegZero => "-0.00"
  | PInf => "inf"
  | PNegInf => "-inf"
  | PNaN => "nan"
  end.

(* ------------------------------------------------------------------ *)
(** ** Configuration *)

Definition BANNED_KEYWORDS : list string :=
  [ "DROP TABLE"; "DELETE FROM"; "refund > 500"; "angry"; "unauthorized";
    "exec("; "eval("; "wasting our time"; "shut up"; "idiot" ].

Definition MAX_REFUND_AMOUNT : Z := 500.

(* ------------------------------------------------------------------ *)
(** ** [check_for_banned_keywords] *)

(** The [for keyword in BANNED_KEYWORDS] loop: the first keyword whose
    lower-cased text is in [data_lower]. *)
Fixpoint scan_keywords (keywords : list string) (data_lower : string)
  : bool * option string :=
  match keywords with
  | [] => (false, None)
  | keyword :: rest =>
      if str_in (lower keyword) data_lower then (true, Some keyword)
      else scan_keywords rest data_lower
  end.

Definition check_for_banned_keywords (data_str : string) : bool * option string :=
  let data_lower := lower data_str in
  scan_keywords BANNED_KEYWORDS data_lower.

(* ------------------------------------------------------------------ *)
(** ** [check_refund_amount] *)

(** [field in data] for a [str] field: key membership for a [dict],
    substring for a [str], element equality for a [list]; any other value
    is not iterable. *)
Definition py_contains (data : json) (field : string) : res bool :=
  match data with
  | JObj kvs => Ok (existsb (fun kv => String.eqb (fst kv) field) kvs)
  | JStr s => Ok (str_in field s)
  | JList l => Ok (existsb (fun v => match v with
                                     | JStr s => String.eqb s field
                                     | _ => false
                                     end) l)
  | _ => Raise TypeError
  end.

Fixpoint lookup (kvs : list (string * json)) (field : string) : option json :=
  match kvs with
  | [] => None
  | (k, v) :: rest => if String.eqb k field then Some v else lookup rest field
  end.

(** [data[field]]: indexing a [str] or a [list] with a [str] is a
    [TypeError]. *)
Definition py_getitem (data : json) (field : string) : res json :=
  match data with
  | JObj kvs => match lookup kvs field with
                | Some v => Ok v
                | None => Raise KeyError
                end
  | _ => Raise TypeError
  end.

(** [float(x)]. *)
Definition py_float (v : json) : res pyfloat :=
  match v with
  | JNull => Raise TypeError
  | JBool b => Ok (PFin (if b then 1 else 0)%Q)
  | JInt z => int_to_float z
  | JFloat f => Ok f
  | JStr s => match float_of_str s with
              | Some f => Ok f
              | None => Raise ValueError
              end
  | JList _ | JObj _ => Raise TypeError
  end.

(** [amount > n] for a [float] and an [int]. *)
Definition float_gt_int (f : pyfloat) (n : Z) : bool :=
  match f with
  | PFin q => negb (Qle_bool q (inject_Z n))
  | PInf => true
  | _ => false
  end.

Definition refund_fields : list string := ["refund_amount"; "refund"; "amount"].

(** The [for field in refund_fields] loop; the [try] body is
    [float(data[field])] and its [except (ValueError, TypeError)] continues
    with the next field. *)
Fixpoint refund_loop (data : json) (fields : list string)
  : res (bool * option pyfloat) :=
  match fields with
  | [] => Ok (false, None)
  | field :: rest =>
      b <- py_contains data field ;;
      if b then
        match (v <- py_getitem data field ;; py_float v) with
        | Ok amount =>
            if float_gt_int amount MAX_REFUND_AMOUNT then Ok (true, Some amount)
            else refund_loop data rest
        | Raise ValueError | Raise TypeError => refund_loop data rest
        | Raise e => Raise e
        end
      else refund_loop data rest
  end.

Definition check_refund_amount (data : json) : res (bool * option pyfloat) :=
  refund_loop data refund_fields.

(* ------------------------------------------------------------------ *)
(** ** [str(data)] and [audit_request] *)

Section Audit.

(** [repr()] of a [float] (CPython's shortest round-trip digits) is not
    embedded: the development is parametric in it. *)
Variable float_repr : pyfloat -> string.

(** [repr(v)]: the text [str] gives for the items of a [list] or [dict]. *)
Fixpoint py_repr (v : json) : string :=
  match v with
  | JNull => "None"
  | JBool true => "True"
  | JBool false => "False"
  | JInt z => Z_to_string z
  | JFloat f => float_repr f
  | JStr s => repr_str s
  | JList l => "[" ++ concat_sep ", " (map py_repr l) ++ "]"
  | JObj kvs =>
      "{" ++ concat_sep ", " (map (fun kv => repr_str (fst kv) ++ ": " ++ py_repr (snd kv)) kvs)
      ++ "}"
  end.

(** [str(data)]: a [str] is its own text, anything else its [repr]. *)
Definition py_str (v : json) : string :=
  match v with
  | JStr s => s
  | _ => py_repr v
  end.

(** The HTTP reply: the [jsonify]-ed body and the status code. *)
Definition response : Type := (json * Z)%type.

Definition blocked (reason : string) (status : Z) : response :=
  (JObj [("status", JStr "BLOCKED"); ("reason", JStr reason)], status).

Definition approved : response := (JObj [("status", JStr "APPROVED")], 200%Z).

Definition banned_reason (keyword : option string) : string :=
  "Banned keyword detected: " ++ dq
  ++ match keyword with Some k => k | None => "None" end ++ dq.

Definition refund_reason (amount : pyfloat) : string :=
  "Refund amount $" ++ fmt_2f amount ++ " exceeds maximum of $"
  ++ Z_to_string MAX_REFUND_AMOUNT.

(** [audit_request] from [data = request.get_json()] on: [data] is the
    decoded body ([JNull] is Python's [None]). *)
Definition audit_request (data : json) : res response :=
  match data with
  | JNull => Ok (blocked "Invalid JSON payload or missing Content-Type header" 400)
  | _ =>
      let data_str := py_str data in
      let '(is_banned, keyword) := check_for_banned_keywords data_str in
      if is_banned then Ok (blocked (banned_reason keyword) 200)
      else
        r <- check_refund_amount data ;;
        let '(is_blocked, amount) := r in
        if is_blocked then
          match amount with
          | Some a => Ok (blocked (refund_reason a) 200)
          | None => Raise TypeError
          end
        else Ok approved
  end.

End Audit.

(** Answering a sequence of requests: each one is handed to
    [audit_request]; the module globals are only read. *)
Fixpoint serve (float_repr : pyfloat -> string) (reqs : list json) : list (res response) :=
  match reqs with
  | [] => []
  | d :: rest => audit_request float_repr d :: serve float_repr rest
  end.

(** [repr] of the floats with an integral value below [10^16], as
    [750.0], and of the special values; the concrete payloads below use no
    other float. *)
Definition float_repr_integral (f : pyfloat) : string :=
  match f with
  | PFin q => Z_to_string (Qnum q / Zpos (Qden q)) ++ ".0"
  | PNegZero => "-0.0"
  | PInf => "inf"
  | PNegInf => "-inf"
  | PNaN => "nan"
  end.

(* ------------------------------------------------------------------ *)
(** ** [run_tests]: the suite of [api/index.py] *)

(** [response.get_json()[key]] when the reply is a JSON object holding a
    string there; [None] where the test itself would crash. *)
Definition reply_field (r : res response) (key : string) : option string :=
  match r with
  | Ok (JObj kvs, _) => match lookup kvs key with Some (JStr s) => Some s | _ => None end
  | _ => None
  end.

Inductive test_outcome := Passed | AssertFailed (msg : string) | Crashed.

(** [assert cond, msg] followed by the rest of the suite. *)
Definition then_assert (cond : option bool) (msg : string) (k : test_outcome) : test_outcome :=
  match cond with
  | None => Crashed
  | Some true => k
  | Some false => AssertFailed msg
  end.

Definition test1_payload : json :=
  JObj [("user", JStr "john_doe"); ("action", JStr "view_profile"); ("refund", JInt 50)].
Definition test2_payload : json :=
  JObj [("query", JStr "DROP TABLE users"); ("user", JStr "hacker")].
Definition test3_payload : json :=
  JObj [("customer", JStr "alice"); ("refund_amount", JInt 750); ("reason", JStr "defective")].
Definition test4_payload : json :=
  JObj [("customer_message", JStr "I am angry about this service"); ("ticket_id", JInt 123)].

Definition run_tests (float_repr : pyfloat -> string) : test_outcome :=
  let r1 := audit_request float_repr test1_payload in
  let r2 := audit_request float_repr test2_payload in
  let r3 := audit_request float_repr test3_payload in
  let r4 := audit_request float_repr test4_payload in
  then_assert (option_map (String.eqb "APPROVED") (reply_field r1 "status")) "Test 1 Failed!" (
  then_assert (option_map (String.eqb "BLOCKED") (reply_field r2 "status")) "Test 2 Failed!" (
  then_assert (option_map (str_in "DROP TABLE") (reply_field r2 "reason"))
    "Test 2 Failed - wrong reason!" (
  then_assert (option_map (String.eqb "BLOCKED") (reply_field r3 "status")) "Test 3 Failed!" (
  then_assert (option_map (str_in "750") (reply_field r3 "reason"))
    "Test 3 Failed - wrong reason!" (
  then_assert (option_map (String.eqb "BLOCKED") (reply_field r4 "status")) "Test 4 Failed!" (
  then_assert (option_map (fun s => str_in "angry" (lower s)) (reply_field r4 "reason"))
    "Test 4 Failed - wrong reason!" Passed)))))).

(* ------------------------------------------------------------------ *)
(** ** [kill_process_on_port] of [start_system.py] *)











(* ------------------------------------------------------------------ *)
(** ** Strings occurring in a payload *)

(** [s] is a string value or a dictionary key somewhere in the payload. *)
Inductive occurs_in (s : string) : json -> Prop :=
| occ_str : occurs_in s (JStr s)
| occ_list x l : In x l -> occurs_in s x -> occurs_in s (JList l)
| occ_key v kvs : In (s, v) kvs -> occurs_in s (JObj kvs)
| occ_val k v kvs : In (k, v) kvs -> occurs_in s v -> occurs_in s (JObj kvs).

(* ------------------------------------------------------------------ *)
(** ** Reference definitions for the refund rule *)

(** The dictionary without the key [field]. *)
Definition remove_key (field : string) (kvs : list (string * json)) : list (string * json) :=
  filter (fun kv => negb (String.eqb (fst kv) field)) kvs.

(** The amount a candidate field gives when it is present, coerces to a
    number and that number is strictly greater than the maximum. *)
Definition over_limit (kvs : list (string * json)) (field : string) : option pyfloat :=
  match lookup kvs field with
  | Some v => match py_float v with
              | Ok a => if float_gt_int a MAX_REFUND_AMOUNT then Some a else None
              | Raise _ => None
              end
  | None => None
  end.

(** The first candidate field, in the given order, over the limit. *)
Definition first_over_in (kvs : list (string * json)) (fields : list string) : option pyfloat :=
  fold_right (fun o acc => match o with Some a => Some a | None => acc end)
    None (map (over_limit kvs) fields).

Definition first_over (kvs : list (string * json)) : option pyfloat :=
  first_over_in kvs refund_fields.

(* ------------------------------------------------------------------ *)
(** ** Lemmas on the keyword scan *)

Lemma scan_keywords_first (kws : list string) (t : string) (i : nat) (kw : string) :
  nth_error kws i = Some kw ->
  str_in (lower kw) t = true ->
  (forall j kw', (j < i)%nat -> nth_error kws j = Some kw' -> str_in (lower kw') t = false) ->
  scan_keywords kws t = (true, Some kw).
Proof.
  revert i. induction kws as [|k kws IH]; intros [|i] Hi Hm Hb; simpl in *.
  - discriminate.
  - discriminate.
  - injection Hi as ->. now rewrite Hm.
  - rewrite (Hb 0%nat k) by (reflexivity || lia).
    apply (IH i); auto.
    intros j kw' Hj Hn. apply (Hb (S j)); [lia | exact Hn].
Qed.

Lemma scan_keywords_none (kws : list string) (t : string) :
  (forall kw, In kw kws -> str_in (lower kw) t = false) ->
  scan_keywords kws t = (false, None).
Proof.
  induction kws as [|k kws IH]; intros H; simpl; [reflexivity|].
  rewrite (H k) by (left; reflexivity). apply IH. intros kw Hin. apply H. now right.
Qed.

Lemma scan_keywords_some (kws : list string) (t : string) (kw : string) :
  In kw kws -> str_in (lower kw) t = true ->
  exists kw', In kw' kws /\ scan_keywords kws t = (true, Some kw').
Proof.
  induction kws as [|k kws IH]; intros Hin Hm; simpl in *; [contradiction|].
  destruct (str_in (lower k) t) eqn:E.
  - exists k. split; [left; reflexivity | reflexivity].
  - destruct Hin as [<- | Hin]; [congruence|].
    destruct (IH Hin Hm) as (kw' & H1 & H2). exists kw'. split; [right|]; assumption.
Qed.

Lemma scan_keywords_result (kws : list string) (t : string) (b : bool) (k : option string) :
  scan_keywords kws t = (b, k) ->
  (b = false /\ k = None) \/ (b = true /\ exists kw, k = Some kw /\ In kw kws).
Proof.
  induction kws as [|x kws IH]; simpl; intros H.
  - injection H as <- <-. left; split; reflexivity.
  - destruct (str_in (lower x) t).
    + injection H as <- <-. right. split; [reflexivity|]. exists x. split; [reflexivity | left; reflexivity].
    + destruct (IH H) as [H1 | (H1 & kw & H2 & H3)]; [left; exact H1|].
      right. split; [exact H1|]. exists kw. split; [exact H2 | right; exact H3].
Qed.

(** No keyword is found in the text of [None]. *)
Lemma no_keyword_in_none :
  forall kw, In kw BANNED_KEYWORDS -> str_in (lower kw) (lower "None") = false.
Proof.
  intros kw Hin. repeat (destruct Hin as [<- | Hin]; [vm_compute; reflexivity|]).
  contradiction.
Qed.

(* ------------------------------------------------------------------ *)
(** ** Lemmas on the refund loop *)

Lemma py_contains_obj (kvs : list (string * json)) (f : string) :
  py_contains (JObj kvs) f = Ok (match lookup kvs f with Some _ => true | None => false end).
Proof.
  unfold py_contains. f_equal.
  induction kvs as [|[k v] kvs IH]; simpl; [reflexivity|].
  destruct (String.eqb k f); simpl; [reflexivity | exact IH].
Qed.

(** One turn of the loop on a dictionary. *)
Lemma refund_loop_obj_cons (kvs : list (string * json)) (f : string) (rest : list string) :
  refund_loop (JObj kvs) (f :: rest) =
  match lookup kvs f with
  | None => refund_loop (JObj kvs) rest
  | Some v =>
      match py_float v with
      | Ok a => if float_gt_int a MAX_REFUND_AMOUNT then Ok (true, Some a)
                else refund_loop (JObj kvs) rest
      | Raise ValueError | Raise TypeError => refund_loop (JObj kvs) rest
      | Raise e => Raise e
      end
  end.
Proof.
  cbn [refund_loop]. rewrite py_contains_obj. cbn [bind py_getitem].
  destruct (lookup kvs f); reflexivity.
Qed.

Lemma lookup_remove_same (kvs : list (string * json)) (f : string) :
  lookup (remove_key f kvs) f = None.
Proof.
  induction kvs as [|[k v] kvs IH]; simpl; [reflexivity|].
  destruct (String.eqb_spec k f) as [->|Hne]; simpl.
  - exact IH.
  - rewrite (proj2 (String.eqb_neq k f) Hne). exact IH.
Qed.

Lemma lookup_remove_other (kvs : list (string * json)) (f g : string) :
  g <> f -> lookup (remove_key f kvs) g = lookup kvs g.
Proof.
  intros Hgf. induction kvs as [|[k v] kvs IH]; simpl; [reflexivity|].
  destruct (String.eqb_spec k f) as [->|Hne]; simpl.
  - rewrite (proj2 (String.eqb_neq f g) (not_eq_sym Hgf)). exact IH.
  - destruct (String.eqb k g); [reflexivity | exact IH].
Qed.

(** A field whose turn of the loop moves on to the next field. *)
Definition field_skipped (kvs : list (string * json)) (field : string) : Prop :=
  match lookup kvs field with
  | None => True
  | Some v => match py_float v with
              | Ok a => float_gt_int a MAX_REFUND_AMOUNT = false
              | Raise ValueError | Raise TypeError => True
              | Raise _ => False
              end
  end.

(** Such a field can be deleted from the dictionary without changing the
    outcome of the loop. *)
Lemma refund_loop_remove_skipped (kvs : list (string * json)) (field : string) :
  field_skipped kvs field ->
  forall fields,
    refund_loop (JObj kvs) fields = refund_loop (JObj (remove_key field kvs)) fields.
Proof.
  intros Hs fields. induction fields as [|f rest IH]; [reflexivity|].
  rewrite !refund_loop_obj_cons.
  destruct (String.eqb_spec f field) as [->|Hne].
  - rewrite lookup_remove_same. unfold field_skipped in Hs.
    destruct (lookup kvs field) as [v|]; [|exact IH].
    destruct (py_float v) as [a|[]]; try contradiction; try exact IH.
    rewrite Hs. exact IH.
  - rewrite (lookup_remove_other kvs field f Hne).
    destruct (lookup kvs f) as [v|]; [|exact IH].
    destruct (py_float v) as [a|[]]; try reflexivity; try exact IH.
    destruct (float_gt_int a MAX_REFUND_AMOUNT); [reflexivity | exact IH].
Qed.

(** [float()] raises [TypeError], [ValueError] or [OverflowError] only. *)
Lemma py_float_not_keyerror (v : json) : py_float v <> Raise KeyError.
Proof.
  destruct v; simpl; try discriminate.
  - unfold int_to_float. destruct (double_of_Q (inject_Z z)); discriminate.
  - destruct (float_of_str s); discriminate.
Qed.

(** Without an [OverflowError] the loop finds exactly the first field over
    the limit. *)
Lemma refund_loop_first_over (kvs : list (string * json)) (fields : list string) :
  (forall f v, In f fields -> lookup kvs f = Some v -> py_float v <> Raise OverflowError) ->
  refund_loop (JObj kvs) fields =
  Ok (match first_over_in kvs fields with
      | Some a => (true, Some a)
      | None => (false, None)
      end).
Proof.
  induction fields as [|f rest IH]; intros Hno; [reflexivity|].
  rewrite refund_loop_obj_cons. unfold first_over_in, over_limit. cbn [map fold_right].
  fold (over_limit kvs). fold (first_over_in kvs rest).
  assert (IH' : refund_loop (JObj kvs) rest =
                Ok (match first_over_in kvs rest with
                    | Some a => (true, Some a) | None => (false, None) end))
    by (apply IH; intros g v Hg; apply Hno; right; exact Hg).
  destruct (lookup kvs f) as [v|] eqn:Hl; [|exact IH'].
  destruct (py_float v) as [a|[]] eqn:Hf; try exact IH'.
  - destruct (float_gt_int a MAX_REFUND_AMOUNT); [reflexivity | exact IH'].
  - exfalso. exact (Hno f v (or_introl eq_refl) Hl Hf).
  - exfalso. exact (py_float_not_keyerror v Hf).
Qed.

(** A violation only comes from a dictionary field over the limit. *)
Lemma refund_loop_true (d : json) (fields : list string) (am : option pyfloat) :
  refund_loop d fields = Ok (true, am) ->
  exists kvs f v a, d = JObj kvs /\ In f fields /\ lookup kvs f = Some v /\
    py_float v = Ok a /\ float_gt_int a MAX_REFUND_AMOUNT = true /\ am = Some a.
Proof.
  induction fields as [|f rest IH]; intros H; [discriminate|].
  destruct d as [| | | | s | l | kvs];
    try (cbn in H; discriminate H).
  - cbn [refund_loop py_contains bind py_getitem] in H.
    destruct (str_in f s); apply IH in H;
      destruct H as (kvs & g & v & a & Hd & _); discriminate Hd.
  - cbn [refund_loop py_contains bind py_getitem] in H.
    destruct (existsb _ l); apply IH in H;
      destruct H as (kvs & g & v & a & Hd & _); discriminate Hd.
  - rewrite refund_loop_obj_cons in H.
    assert (Hrest : refund_loop (JObj kvs) rest = Ok (true, am) ->
                    exists kvs' g v a, JObj kvs = JObj kvs' /\ In g (f :: rest) /\
                      lookup kvs' g = Some v /\ py_float v = Ok a /\
                      float_gt_int a MAX_REFUND_AMOUNT = true /\ am = Some a).
    { intros Hr. destruct (IH Hr) as (kvs' & g & v & a & H1 & H2 & H3).
      exists kvs', g, v, a. split; [exact H1 | split; [right; exact H2 | exact H3]]. }
    destruct (lookup kvs f) as [v|] eqn:Hl; [|exact (Hrest H)].
    destruct (py_float v) as [a|[]] eqn:Hf; try exact (Hrest H); try discriminate H.
    destruct (float_gt_int a MAX_REFUND_AMOUNT) eqn:Hg; [|exact (Hrest H)].
    injection H as <-. exists kvs, f, v, a. repeat split; auto. left; reflexivity.
Qed.

(** On a [str] or a [list] the loop never reports a violation. *)
Lemma refund_loop_str (s : string) (fields : list string) :
  refund_loop (JStr s) fields = Ok (false, None).
Proof.
  induction fields as [|f rest IH]; [reflexivity|].
  cbn [refund_loop py_contains bind py_getitem]. destruct (str_in f s); exact IH.
Qed.

Lemma refund_loop_list (l : list json) (fields : list string) :
  refund_loop (JList l) fields = Ok (false, None).
Proof.
  induction fields as [|f rest IH]; [reflexivity|].
  cbn [refund_loop py_contains bind py_getitem]. destruct (existsb _ l); exact IH.
Qed.

(** [audit_request] on a value other than [None] whose text has no
    keyword is the refund check's verdict. *)
Lemma audit_request_no_keyword (float_repr : pyfloat -> string) (d : json) :
  d <> JNull ->
  (forall kw, In kw BANNED_KEYWORDS -> str_in (lower kw) (lower (py_str float_repr d)) = false) ->
  audit_request float_repr d =
  (r <- check_refund_amount d ;;
   let '(is_blocked, amount) := r in
   if is_blocked then
     match amount with
     | Some a => Ok (blocked (refund_reason a) 200)
     | None => Raise TypeError
     end
   else Ok approved).
Proof.
  intros Hd Hk. unfold audit_request, check_for_banned_keywords.
  rewrite (scan_keywords_none _ _ Hk).
  destruct d; [contradiction Hd; reflexivity | reflexivity ..].
Qed.

(* ------------------------------------------------------------------ *)
(** ** The claims *)

(** C1 (code_bug): [audit_request] does not return a verdict on every
    decoded value. A top-level number makes [field in data] raise
    [TypeError] outside the [try], and an integer beyond the double range in
    a refund field makes [float()] raise [OverflowError], which the
    [except (ValueError, TypeError)] does not catch. *)
Theorem audit_request_raises (float_repr : pyfloat -> string) :
  audit_request float_repr (JInt 5) = Raise TypeError /\
  audit_request float_repr (JObj [("refund", JInt (10 ^ 400))]) = Raise OverflowError.
Proof. split; vm_compute; reflexivity. Qed.

(** C2 (counterexample): a within-limit [refund_amount] does not end the
    loop: [{"refund_amount": 100, "amount": 600}] is reported as a
    violation with the amount 600. *)
Lemma refund_check_continues_past_within_limit :
  py_float (JInt 100) = Ok (PFin 100) /\
  float_gt_int (PFin 100) MAX_REFUND_AMOUNT = false /\
  check_refund_amount (JObj [("refund_amount", JInt 100); ("amount", JInt 600)])
  = Ok (true, Some (PFin 600)).
Proof. vm_compute. repeat split. Qed.

(** C2 (amended): for a dictionary payload, a candidate field whose value
    coerces to a number not greater than 500 does not stop the evaluation:
    the result is the one for the payload without that field, so the later
    aliases are still examined. *)
Theorem refund_within_limit_treated_as_absent
  (kvs : list (string * json)) (field : string) (v : json) (a : pyfloat) :
  lookup kvs field = Some v ->
  py_float v = Ok a ->
  float_gt_int a MAX_REFUND_AMOUNT = false ->
  check_refund_amount (JObj kvs) = check_refund_amount (JObj (remove_key field kvs)).
Proof.
  intros Hl Hf Hg. apply refund_loop_remove_skipped.
  unfold field_skipped. rewrite Hl, Hf. exact Hg.
Qed.

Lemma refund_within_limit_treated_as_absent_witness :
  lookup [("refund_amount", JInt 100); ("amount", JInt 600)] "refund_amount" = Some (JInt 100) /\
  py_float (JInt 100) = Ok (PFin 100) /\
  float_gt_int (PFin 100) MAX_REFUND_AMOUNT = false /\
  check_refund_amount (JObj [("refund_amount", JInt 100); ("amount", JInt 600)])
  = check_refund_amount (JObj [("amount", JInt 600)]).
Proof.
  split; [reflexivity|]. split; [vm_compute; reflexivity|]. split; [vm_compute; reflexivity|].
  apply (refund_within_limit_treated_as_absent
           [("refund_amount", JInt 100); ("amount", JInt 600)] "refund_amount" (JInt 100) (PFin 100));
    vm_compute; reflexivity.
Defined.

(** C3: when the lower-cased text [str(data)] contains the lower-cased
    keyword number [i] of [BANNED_KEYWORDS] and none of the keywords before
    it, [audit_request] answers BLOCKED with the reason
    [Banned keyword detected: "<keyword i>"], that single keyword. *)
Theorem audit_blocks_first_banned_keyword
  (float_repr : pyfloat -> string) (d : json) (i : nat) (kw : string) :
  nth_error BANNED_KEYWORDS i = Some kw ->
  str_in (lower kw) (lower (py_str float_repr d)) = true ->
  (forall j kw', (j < i)%nat -> nth_error BANNED_KEYWORDS j = Some kw' ->
     str_in (lower kw') (lower (py_str float_repr d)) = false) ->
  audit_request float_repr d = Ok (blocked (banned_reason (Some kw)) 200).
Proof.
  intros Hi Hm Hb.
  assert (Hd : d <> JNull).
  { intros ->. apply nth_error_In in Hi.
    pose proof (no_keyword_in_none kw Hi) as Hn. simpl in Hm, Hn. congruence. }
  unfold audit_request, check_for_banned_keywords.
  rewrite (scan_keywords_first _ _ i kw Hi Hm Hb).
  destruct d; [contradiction Hd; reflexivity | reflexivity ..].
Qed.

Lemma audit_blocks_first_banned_keyword_witness :
  nth_error BANNED_KEYWORDS 3 = Some "angry" /\
  audit_request float_repr_integral
    (JObj [("customer_message", JStr "I am ANGRY, unauthorized"); ("ticket_id", JInt 123)])
  = Ok (blocked (banned_reason (Some "angry")) 200).
Proof.
  split; [reflexivity|].
  apply (audit_blocks_first_banned_keyword float_repr_integral _ 3 "angry").
  - reflexivity.
  - vm_compute. reflexivity.
  - intros [|[|[|j]]] kw' Hj Hn; try lia; injection Hn as <-; vm_compute; reflexivity.
Defined.

(** C4: a payload whose text holds a banned keyword and which has a
    candidate refund field over the limit is BLOCKED for a banned keyword,
    never with the refund reason. *)
Theorem audit_keyword_before_refund
  (float_repr : pyfloat -> string) (kvs : list (string * json)) (kw field : string)
  (v : json) (a : pyfloat) :
  In kw BANNED_KEYWORDS ->
  str_in (lower kw) (lower (py_str float_repr (JObj kvs))) = true ->
  In field refund_fields -> lookup kvs field = Some v -> py_float v = Ok a ->
  float_gt_int a MAX_REFUND_AMOUNT = true ->
  (exists kw', In kw' BANNED_KEYWORDS /\
     audit_request float_repr (JObj kvs) = Ok (blocked (banned_reason (Some kw')) 200)) /\
  (forall a', audit_request float_repr (JObj kvs) <> Ok (blocked (refund_reason a') 200)).
Proof.
  intros Hin Hm _ _ _ _.
  destruct (scan_keywords_some _ _ _ Hin Hm) as (kw' & Hin' & Hs).
  assert (Ha : audit_request float_repr (JObj kvs) = Ok (blocked (banned_reason (Some kw')) 200)).
  { unfold audit_request, check_for_banned_keywords. rewrite Hs. reflexivity. }
  split.
  - exists kw'. split; assumption.
  - intros a' H. rewrite Ha in H. injection H as H. discriminate H.
Qed.

Lemma audit_keyword_before_refund_witness :
  audit_request float_repr_integral
    (JObj [("query", JStr "DROP TABLE refunds"); ("refund_amount", JInt 900)])
  = Ok (blocked (banned_reason (Some "DROP TABLE")) 200) /\
  (exists kw', In kw' BANNED_KEYWORDS /\
     audit_request float_repr_integral
       (JObj [("query", JStr "DROP TABLE refunds"); ("refund_amount", JInt 900)])
     = Ok (blocked (banned_reason (Some kw')) 200)).
Proof.
  split; [vm_compute; reflexivity|].
  refine (proj1 (audit_keyword_before_refund float_repr_integral
                   [("query", JStr "DROP TABLE refunds"); ("refund_amount", JInt 900)]
                   "DROP TABLE" "refund_amount" (JInt 900) (PFin 900) _ _ _ _ _ _)).
  - left; reflexivity.
  - vm_compute; reflexivity.
  - left; reflexivity.
  - reflexivity.
  - vm_compute; reflexivity.
  - vm_compute; reflexivity.
Defined.

Lemma float_gt_int_fin (q : Q) (n : Z) :
  float_gt_int (PFin q) n = true <-> (inject_Z n < q)%Q.
Proof.
  unfold float_gt_int. rewrite negb_true_iff. split; intros H.
  - apply Qnot_le_lt. intros Hle. apply Qle_bool_iff in Hle. congruence.
  - destruct (Qle_bool q (inject_Z n)) eqn:E; [|reflexivity].
    apply Qle_bool_iff in E. exfalso. exact (Qlt_not_le _ _ H E).
Qed.

(** C5 (counterexample): the first usable amount does not decide alone:
    [refund_amount] gives 100, not over the limit, yet
    [{"refund_amount": 100, "amount": 600}] is BLOCKED for the amount 600. *)
Lemma audit_refund_first_usable_not_decisive :
  lookup [("refund_amount", JInt 100); ("amount", JInt 600)] "refund_amount" = Some (JInt 100) /\
  py_float (JInt 100) = Ok (PFin 100) /\
  float_gt_int (PFin 100) MAX_REFUND_AMOUNT = false /\
  audit_request float_repr_integral (JObj [("refund_amount", JInt 100); ("amount", JInt 600)])
  = Ok (blocked "Refund amount $600.00 exceeds maximum of $500" 200).
Proof. vm_compute. repeat split. Qed.

(** C5 (amended): for a dictionary payload with no banned keyword in its
    text, and no candidate field raising [OverflowError] in [float()], the
    verdict is BLOCKED with [Refund amount $<a, two decimals> exceeds
    maximum of $500] for the first candidate field (in the order
    refund_amount, refund, amount) whose value coerces to a number [a]
    strictly greater than 500, and APPROVED when there is none. *)
Theorem audit_refund_first_over_limit
  (float_repr : pyfloat -> string) (kvs : list (string * json)) :
  (forall kw, In kw BANNED_KEYWORDS ->
     str_in (lower kw) (lower (py_str float_repr (JObj kvs))) = false) ->
  (forall f v, In f refund_fields -> lookup kvs f = Some v -> py_float v <> Raise OverflowError) ->
  (forall q, float_gt_int (PFin q) MAX_REFUND_AMOUNT = true <-> (inject_Z 500 < q)%Q) /\
  audit_request float_repr (JObj kvs) =
  match first_over kvs with
  | Some a => Ok (blocked ("Refund amount $" ++ fmt_2f a ++ " exceeds maximum of $500") 200)
  | None => Ok approved
  end.
Proof.
  intros Hk Hno. split; [intros q; apply float_gt_int_fin|].
  rewrite audit_request_no_keyword by (discriminate || exact Hk).
  unfold check_refund_amount. rewrite (refund_loop_first_over kvs refund_fields Hno).
  unfold first_over. destruct (first_over_in kvs refund_fields); reflexivity.
Qed.

Lemma audit_refund_first_over_limit_witness :
  audit_request float_repr_integral
    (JObj [("refund_amount", JStr "abc"); ("refund", JInt 100); ("amount", JStr " 750.5 ")])
  = Ok (blocked "Refund amount $750.50 exceeds maximum of $500" 200).
Proof.
  refine (eq_trans (proj2 (audit_refund_first_over_limit float_repr_integral _ _ _)) _).
  - intros kw Hin. repeat (destruct Hin as [<- | Hin]; [vm_compute; reflexivity|]). contradiction.
  - intros f v Hf. repeat (destruct Hf as [<- | Hf]; [intros Hl; injection Hl as <-; vm_compute; discriminate|]).
    contradiction.
  - vm_compute. reflexivity.
Defined.

(** C6 (counterexample): [None] has no keyword and no refund field, yet it
    is answered BLOCKED by the [if data is None] guard, with status 400. *)
Lemma audit_null_blocked :
  (forall kw, In kw BANNED_KEYWORDS ->
     str_in (lower kw) (lower (py_str float_repr_integral JNull)) = false) /\
  audit_request float_repr_integral JNull
  = Ok (blocked "Invalid JSON payload or missing Content-Type header" 400).
Proof. split; [exact no_keyword_in_none | reflexivity]. Qed.

(** C6 (amended): [None] is answered BLOCKED (status 400, "Invalid JSON
    payload or missing Content-Type header"). Any other payload with no
    banned keyword in its text and no candidate field over the limit is
    never BLOCKED: when [audit_request] returns, it returns APPROVED, whose
    body has no [reason] key. *)
Theorem audit_approves_clean_payload (float_repr : pyfloat -> string) :
  audit_request float_repr JNull
  = Ok (blocked "Invalid JSON payload or missing Content-Type header" 400) /\
  (forall d r,
     d <> JNull ->
     (forall kw, In kw BANNED_KEYWORDS ->
        str_in (lower kw) (lower (py_str float_repr d)) = false) ->
     (forall kvs, d = JObj kvs -> forall f v a, In f refund_fields ->
        lookup kvs f = Some v -> py_float v = Ok a ->
        float_gt_int a MAX_REFUND_AMOUNT = false) ->
     audit_request float_repr d = Ok r ->
     r = approved /\
     match fst r with JObj kvs => lookup kvs "reason" = None | _ => False end).
Proof.
  split; [reflexivity|].
  intros d r Hd Hk Hf Ha.
  rewrite audit_request_no_keyword in Ha by assumption.
  destruct (check_refund_amount d) as [[[|] am]|e] eqn:Ec; simpl in Ha.
  - exfalso. destruct (refund_loop_true _ _ _ Ec) as (kvs & f & v & a & -> & Hin & Hl & Hp & Hg & _).
    rewrite (Hf kvs eq_refl f v a Hin Hl Hp) in Hg. discriminate Hg.
  - injection Ha as <-. split; reflexivity.
  - discriminate Ha.
Qed.

Lemma audit_approves_clean_payload_witness :
  audit_request float_repr_integral
    (JObj [("user", JStr "john_doe"); ("action", JStr "view_profile"); ("refund", JInt 50)])
  = Ok approved /\
  (approved = approved /\
   match fst approved with JObj kvs => lookup kvs "reason" = None | _ => False end).
Proof.
  assert (Ha : audit_request float_repr_integral
    (JObj [("user", JStr "john_doe"); ("action", JStr "view_profile"); ("refund", JInt 50)])
    = Ok approved) by (vm_compute; reflexivity).
  split; [exact Ha|].
  apply (proj2 (audit_approves_clean_payload float_repr_integral)
    (JObj [("user", JStr "john_doe"); ("action", JStr "view_profile"); ("refund", JInt 50)])
    approved).
  - discriminate.
  - intros kw Hin. repeat (destruct Hin as [<- | Hin]; [vm_compute; reflexivity|]). contradiction.
  - intros kvs Hkvs f v a Hin Hl Hp. injection Hkvs as <-.
    repeat (destruct Hin as [<- | Hin];
      [try discriminate Hl; injection Hl as <-; vm_compute in Hp; injection Hp as <-;
       vm_compute; reflexivity|]).
    contradiction.
  - exact Ha.
Defined.

(** Scenario E of the spec. *)
Definition scenario_e : list (string * json) :=
  [("refund_amount", JStr "not_a_number"); ("refund", JInt 600)].

(** C7: for a dictionary payload, a candidate field whose value [float()]
    rejects with [ValueError] or [TypeError] is treated as absent, so the
    next candidate field is tried; scenario E,
    [{"refund_amount": "not_a_number", "refund": 600}], is BLOCKED through
    [refund] with [Refund amount $600.00 exceeds maximum of $500]. *)
Theorem audit_skips_non_numeric_field :
  (forall kvs field v,
     lookup kvs field = Some v ->
     py_float v = Raise ValueError \/ py_float v = Raise TypeError ->
     check_refund_amount (JObj kvs) = check_refund_amount (JObj (remove_key field kvs))) /\
  (forall float_repr : pyfloat -> string,
     audit_request float_repr (JObj scenario_e)
     = Ok (blocked "Refund amount $600.00 exceeds maximum of $500" 200)).
Proof.
  split.
  - intros kvs field v Hl He. apply refund_loop_remove_skipped.
    unfold field_skipped. rewrite Hl. destruct He as [-> | ->]; exact I.
  - intros float_repr. vm_compute. reflexivity.
Qed.

Lemma audit_skips_non_numeric_field_witness :
  py_float (JStr "not_a_number") = Raise ValueError /\
  check_refund_amount (JObj scenario_e)
  = check_refund_amount (JObj [("refund", JInt 600)]) /\
  audit_request float_repr_integral (JObj scenario_e)
  = Ok (blocked "Refund amount $600.00 exceeds maximum of $500" 200).
Proof.
  split; [vm_compute; reflexivity|]. split.
  - apply (proj1 audit_skips_non_numeric_field scenario_e "refund_amount" (JStr "not_a_number")).
    + reflexivity.
    + left. vm_compute. reflexivity.
  - exact (proj2 audit_skips_non_numeric_field float_repr_integral).
Defined.

(** C8 (code_bug): on a top-level number or boolean the membership test
    [field in data], outside the [try], raises [TypeError]. *)
Theorem refund_check_raises_on_number :
  check_refund_amount (JInt 5) = Raise TypeError /\
  check_refund_amount (JFloat (PFin 1)) = Raise TypeError /\
  check_refund_amount (JBool true) = Raise TypeError.
Proof. repeat split. Qed.

(** C9: in any sequence of requests, the reply to a payload is
    [audit_request] of that payload alone; two identical payloads get the
    same reply whatever was served before or between them. *)
Lemma serve_app_nth (float_repr : pyfloat -> string) (pre l : list json) (k : nat) :
  nth_error (serve float_repr (pre ++ l)) (List.length pre + k) = nth_error (serve float_repr l) k.
Proof. induction pre as [|x pre IH]; simpl; [reflexivity | exact IH]. Qed.

Theorem serve_reply_depends_only_on_payload
  (float_repr : pyfloat -> string) (pre mid post : list json) (d : json) :
  let rs := serve float_repr (pre ++ d :: mid ++ d :: post) in
  nth_error rs (List.length pre) = Some (audit_request float_repr d) /\
  nth_error rs (List.length pre + S (List.length mid)) = Some (audit_request float_repr d).
Proof.
  simpl. split.
  - rewrite <- (Nat.add_0_r (List.length pre)), serve_app_nth. reflexivity.
  - rewrite serve_app_nth. simpl. rewrite <- (Nat.add_0_r (List.length mid)), serve_app_nth.
    reflexivity.
Qed.

(** C10: on a top-level [str] or [list] the refund check reports no
    violation and no amount: indexing it with a field name is a
    [TypeError], which the [except] skips, even where [field in data]
    holds. *)
Theorem refund_check_string_list (s : string) (l : list json) (field : string) :
  check_refund_amount (JStr s) = Ok (false, None) /\
  check_refund_amount (JList l) = Ok (false, None) /\
  py_getitem (JStr s) field = Raise TypeError /\
  py_getitem (JList l) field = Raise TypeError.
Proof.
  split; [apply refund_loop_str|]. split; [apply refund_loop_list|].
  split; reflexivity.
Qed.

(* ------------------------------------------------------------------ *)
(** ** Lemmas on strings *)

Lemma str_app_assoc (a b c : string) : a ++ (b ++ c) = (a ++ b) ++ c.
Proof. induction a as [|x a IH]; simpl; [reflexivity | now rewrite IH]. Qed.

Lemma str_app_nil_r (a : string) : a ++ "" = a.
Proof. induction a as [|x a IH]; simpl; [reflexivity | now rewrite IH]. Qed.

(** [m] is a contiguous piece of [h]. *)
Definition segment (h m : string) : Prop := exists a b, h = a ++ m ++ b.

Lemma segment_refl (h : string) : segment h h.
Proof. exists "", "". simpl. now rewrite str_app_nil_r. Qed.

Lemma segment_trans (h x m : string) : segment h x -> segment x m -> segment h m.
Proof.
  intros (a & b & ->) (c & d & ->). exists (a ++ c), (d ++ b).
  rewrite !str_app_assoc. reflexivity.
Qed.

Lemma segment_app_l (x y : string) : segment (y ++ x) x.
Proof. exists y, "". now rewrite str_app_nil_r. Qed.

Lemma segment_app_r (x y : string) : segment (x ++ y) x.
Proof. exists "", y. reflexivity. Qed.

Lemma prefix_app (n b : string) : prefix n (n ++ b) = true.
Proof.
  induction n as [|c n IH]; simpl; [destruct b; reflexivity|].
  destruct (ascii_dec c c) as [_|H]; [exact IH | now contradiction H].
Qed.

Lemma prefix_inv (n h : string) : prefix n h = true -> exists b, h = n ++ b.
Proof.
  revert h. induction n as [|c n IH]; intros h H.
  - exists h. reflexivity.
  - destruct h as [|d h]; simpl in H; [discriminate|].
    destruct (ascii_dec c d) as [<-|]; [|discriminate].
    destruct (IH h H) as [b ->]. exists b. reflexivity.
Qed.

(** [needle in hay] holds exactly when the needle is a piece of the hay. *)
Lemma str_in_segment (n h : string) : str_in n h = true <-> segment h n.
Proof.
  split.
  - induction h as [|c h IH]; intros H; cbn [str_in] in H.
    + destruct n; [exists "", ""; reflexivity | discriminate H].
    + apply orb_true_iff in H as [H | H].
      * destruct (prefix_inv _ _ H) as [b Hb]. exists "", b. exact Hb.
      * destruct (IH H) as (a & b & ->). exists (String c a), b. reflexivity.
  - intros (a & b & ->). induction a as [|c a IH].
    + pose proof (prefix_app n b) as Hp. simpl append.
      destruct (n ++ b) as [|x h]; cbn [str_in]; rewrite Hp; reflexivity.
    + change (String c a ++ n ++ b) with (String c (a ++ n ++ b)).
      cbn [str_in]. rewrite IH, orb_true_r. reflexivity.
Qed.

Lemma lower_app (a b : string) : lower (a ++ b) = lower a ++ lower b.
Proof. induction a as [|c a IH]; simpl; [reflexivity | now rewrite IH]. Qed.

Lemma segment_lower (h m : string) : segment h m -> segment (lower h) (lower m).
Proof.
  intros (a & b & ->). exists (lower a), (lower b). now rewrite !lower_app.
Qed.

Lemma lower_char_idem (c : ascii) : lower_char (lower_char c) = lower_char c.
Proof. destruct c as [[] [] [] [] [] [] [] []]; vm_compute; reflexivity. Qed.

Lemma lower_idem (s : string) : lower (lower s) = lower s.
Proof. induction s as [|c s IH]; simpl; [reflexivity | now rewrite lower_char_idem, IH]. Qed.

Lemma repr_chars_app (q : nat) (a b : string) :
  repr_chars q (a ++ b) = repr_chars q a ++ repr_chars q b.
Proof.
  induction a as [|c a IH]; simpl; [reflexivity|].
  rewrite IH, str_app_assoc. reflexivity.
Qed.

Lemma segment_repr_chars (q : nat) (h m : string) :
  segment h m -> segment (repr_chars q h) (repr_chars q m).
Proof.
  intros (a & b & ->). exists (repr_chars q a), (repr_chars q b).
  now rewrite !repr_chars_app.
Qed.

(** Escaping commutes with [lower]: the escapes are already lower case
    and the characters [lower] changes are printable. *)
Lemma lower_repr_char (q : nat) (c : ascii) :
  (q = 34 \/ q = 39)%nat -> lower (repr_char q c) = repr_char q (lower_char c).
Proof.
  intros [-> | ->]; destruct c as [[] [] [] [] [] [] [] []]; vm_compute; reflexivity.
Qed.

Lemma lower_repr_chars (q : nat) (s : string) :
  (q = 34 \/ q = 39)%nat -> lower (repr_chars q s) = repr_chars q (lower s).
Proof.
  intros Hq. induction s as [|c s IH]; simpl; [reflexivity|].
  rewrite lower_app, IH, lower_repr_char by exact Hq. reflexivity.
Qed.

(** The lower-cased keywords have no character [repr] escapes. *)
Lemma repr_chars_keyword (q : nat) (kw : string) :
  (q = 34 \/ q = 39)%nat -> In kw BANNED_KEYWORDS -> repr_chars q (lower kw) = lower kw.
Proof.
  intros [-> | ->] Hin;
    repeat (destruct Hin as [<- | Hin]; [vm_compute; reflexivity|]); contradiction.
Qed.

Lemma concat_sep_segment (sep x : string) (l : list string) :
  In x l -> segment (concat_sep sep l) x.
Proof.
  induction l as [|y l IH]; intros Hin; [contradiction|].
  destruct Hin as [<- | Hin].
  - destruct l as [|z l]; [apply segment_refl | apply segment_app_r].
  - destruct l as [|z l]; [contradiction|].
    apply (segment_trans _ (concat_sep sep (z :: l))); [|exact (IH Hin)].
    change (concat_sep sep (y :: z :: l)) with (y ++ sep ++ concat_sep sep (z :: l)).
    rewrite str_app_assoc. apply segment_app_l.
Qed.

(** Every string occurring in a payload appears, escaped, in its [repr]. *)
Lemma occurs_in_repr (float_repr : pyfloat -> string) (s : string) (d : json) :
  occurs_in s d ->
  exists q, (q = 34 \/ q = 39)%nat /\ segment (py_repr float_repr d) (repr_chars q s).
Proof.
  assert (Hstr : forall t, exists q, (q = 34 \/ q = 39)%nat /\ segment (repr_str t) (repr_chars q t)).
  { intros t. unfold repr_str.
    set (quote := if has_char 39 t && negb (has_char 34 t) then 34%nat else 39%nat).
    exists quote. split.
    - unfold quote. destruct (_ && _); [left | right]; reflexivity.
    - exists (String (chr quote) ""), (String (chr quote) ""). reflexivity. }
  induction 1 as [| x l Hin Hocc IH | v kvs Hin | k v kvs Hin Hocc IH].
  - exact (Hstr s).
  - destruct IH as (q & Hq & Hseg). exists q. split; [exact Hq|].
    change (py_repr float_repr (JList l))
      with ("[" ++ concat_sep ", " (map (py_repr float_repr) l) ++ "]").
    apply (segment_trans _ (py_repr float_repr x)); [|exact Hseg].
    apply (segment_trans _ (concat_sep ", " (map (py_repr float_repr) l) ++ "]")).
    + apply segment_app_l.
    + apply (segment_trans _ (concat_sep ", " (map (py_repr float_repr) l))).
      * apply segment_app_r.
      * apply concat_sep_segment. apply in_map. exact Hin.
  - destruct (Hstr s) as (q & Hq & Hseg). exists q. split; [exact Hq|].
    set (f := fun kv : string * json =>
                repr_str (fst kv) ++ ": " ++ py_repr float_repr (snd kv)).
    change (py_repr float_repr (JObj kvs)) with ("{" ++ concat_sep ", " (map f kvs) ++ "}").
    apply (segment_trans _ (f (s, v))).
    + apply (segment_trans _ (concat_sep ", " (map f kvs) ++ "}")); [apply segment_app_l|].
      apply (segment_trans _ (concat_sep ", " (map f kvs))); [apply segment_app_r|].
      apply concat_sep_segment. apply in_map. exact Hin.
    + apply (segment_trans _ (repr_str s)); [apply segment_app_r | exact Hseg].
  - destruct IH as (q & Hq & Hseg). exists q. split; [exact Hq|].
    set (f := fun kv : string * json =>
                repr_str (fst kv) ++ ": " ++ py_repr float_repr (snd kv)).
    change (py_repr float_repr (JObj kvs)) with ("{" ++ concat_sep ", " (map f kvs) ++ "}").
    apply (segment_trans _ (f (k, v))).
    + apply (segment_trans _ (concat_sep ", " (map f kvs) ++ "}")); [apply segment_app_l|].
      apply (segment_trans _ (concat_sep ", " (map f kvs))); [apply segment_app_r|].
      apply concat_sep_segment. apply in_map. exact Hin.
    + apply (segment_trans _ (py_repr float_repr v)); [|exact Hseg].
      unfold f. cbn [fst snd]. rewrite (str_app_assoc (repr_str k) ": ").
      apply segment_app_l.
Qed.

(* ------------------------------------------------------------------ *)
(** ** Further properties of the engine *)

Lemma scan_keywords_match (kws : list string) (t kw : string) (b : bool) :
  scan_keywords kws t = (b, Some kw) -> In kw kws /\ str_in (lower kw) t = true.
Proof.
  induction kws as [|x kws IH]; simpl; intros H; [discriminate|].
  destruct (str_in (lower x) t) eqn:E.
  - injection H as _ <-. split; [left; reflexivity | exact E].
  - destruct (IH H) as [H1 H2]. split; [right; exact H1 | exact H2].
Qed.

(** [check_for_banned_keywords] is blind to case: it gives the same answer
    on the lower-cased text, and it either finds nothing or names a keyword
    of [BANNED_KEYWORDS] whose lower-cased text is in the lower-cased
    input. *)
Theorem banned_keywords_case_blind (s : string) :
  check_for_banned_keywords s = check_for_banned_keywords (lower s) /\
  (check_for_banned_keywords s = (false, None) \/
   exists kw, check_for_banned_keywords s = (true, Some kw) /\
     In kw BANNED_KEYWORDS /\ str_in (lower kw) (lower s) = true).
Proof.
  unfold check_for_banned_keywords. rewrite lower_idem. split; [reflexivity|].
  destruct (scan_keywords BANNED_KEYWORDS (lower s)) as [b k] eqn:E.
  destruct (scan_keywords_result _ _ _ _ E) as [[-> ->] | (-> & kw & -> & _)].
  - left. reflexivity.
  - right. exists kw. split; [reflexivity|]. exact (scan_keywords_match _ _ _ _ E).
Qed.

(** A banned keyword inside any string of the payload, a top-level string,
    a string value at any depth or a dictionary key at any depth, in any
    case, gets the payload BLOCKED for a banned keyword. *)
Theorem audit_blocks_keyword_anywhere
  (float_repr : pyfloat -> string) (d : json) (s kw : string) :
  occurs_in s d -> In kw BANNED_KEYWORDS -> str_in (lower kw) (lower s) = true ->
  exists kw', In kw' BANNED_KEYWORDS /\
    audit_request float_repr d = Ok (blocked (banned_reason (Some kw')) 200).
Proof.
  intros Hocc Hkw Hm.
  assert (Htext : str_in (lower kw) (lower (py_str float_repr d)) = true).
  { apply str_in_segment. apply str_in_segment in Hm.
    destruct d as [| | | | s0 | l | kvs]; try (inversion Hocc; fail).
    - inversion Hocc; subst. exact Hm.
    - destruct (occurs_in_repr float_repr s _ Hocc) as (q & Hq & Hseg).
      apply (segment_trans _ (lower (repr_chars q s))); [exact (segment_lower _ _ Hseg)|].
      rewrite (lower_repr_chars q s Hq), <- (repr_chars_keyword q kw Hq Hkw).
      exact (segment_repr_chars q _ _ Hm).
    - destruct (occurs_in_repr float_repr s _ Hocc) as (q & Hq & Hseg).
      apply (segment_trans _ (lower (repr_chars q s))); [exact (segment_lower _ _ Hseg)|].
      rewrite (lower_repr_chars q s Hq), <- (repr_chars_keyword q kw Hq Hkw).
      exact (segment_repr_chars q _ _ Hm). }
  destruct (scan_keywords_some _ _ _ Hkw Htext) as (kw' & Hin' & Hs).
  exists kw'. split; [exact Hin'|].
  unfold audit_request, check_for_banned_keywords. rewrite Hs.
  destruct d; [inversion Hocc | reflexivity ..].
Qed.

Lemma audit_blocks_keyword_anywhere_witness :
  occurs_in "Idiotic answer"
    (JObj [("ticket", JList [JObj [("note", JStr "Idiotic answer")]])]) /\
  exists kw', In kw' BANNED_KEYWORDS /\
    audit_request float_repr_integral
      (JObj [("ticket", JList [JObj [("note", JStr "Idiotic answer")]])])
    = Ok (blocked (banned_reason (Some kw')) 200).
Proof.
  assert (Hocc : occurs_in "Idiotic answer"
                   (JObj [("ticket", JList [JObj [("note", JStr "Idiotic answer")]])])).
  { eapply occ_val; [left; reflexivity|].
    eapply occ_list; [left; reflexivity|].
    eapply occ_val; [left; reflexivity|]. apply occ_str. }
  split; [exact Hocc|].
  apply (audit_blocks_keyword_anywhere float_repr_integral _ "Idiotic answer" "idiot" Hocc).
  - vm_compute. repeat (first [left; reflexivity | right]).
  - vm_compute. reflexivity.
Defined.

(** A top-level [str] or [list] never raises and never gets the refund
    reason: it is APPROVED or BLOCKED for a banned keyword; for a [str] the
    verdict does not depend on letter case. *)
Theorem audit_str_list_payload (float_repr : pyfloat -> string) (s : string) (l : list json) :
  audit_request float_repr (JStr s) = audit_request float_repr (JStr (lower s)) /\
  (forall d, d = JStr s \/ d = JList l ->
     audit_request float_repr d = Ok approved \/
     exists kw, In kw BANNED_KEYWORDS /\
       audit_request float_repr d = Ok (blocked (banned_reason (Some kw)) 200)).
Proof.
  split.
  - unfold audit_request, py_str, check_refund_amount.
    rewrite (proj1 (banned_keywords_case_blind s)), !refund_loop_str. reflexivity.
  - intros d Hd.
    assert (Hr : check_refund_amount d = Ok (false, None)).
    { destruct Hd as [-> | ->]; [apply refund_loop_str | apply refund_loop_list]. }
    assert (Hn : d <> JNull) by (destruct Hd as [-> | ->]; discriminate).
    unfold audit_request. destruct (check_for_banned_keywords (py_str float_repr d)) as [b k] eqn:E.
    unfold check_for_banned_keywords in E.
    destruct (scan_keywords_result _ _ _ _ E) as [[-> ->] | (-> & kw & -> & Hin)].
    + left. destruct d; try (contradiction Hn; reflexivity); rewrite Hr; reflexivity.
    + right. exists kw. split; [exact Hin|].
      destruct d; [contradiction Hn; reflexivity | reflexivity ..].
Qed.

Lemma refund_loop_false (d : json) (fields : list string) (am : option pyfloat) :
  refund_loop d fields = Ok (false, am) -> am = None.
Proof.
  induction fields as [|f rest IH]; simpl; intros H.
  - injection H as <-. reflexivity.
  - destruct (py_contains d f) as [[]|e]; simpl in H; [|exact (IH H)|discriminate H].
    destruct (v <- py_getitem d f;; py_float v) as [a|[]]; try exact (IH H); try discriminate H.
    destruct (float_gt_int a MAX_REFUND_AMOUNT); [discriminate H | exact (IH H)].
Qed.

(** What [check_refund_amount] returns is either [(False, None)] or
    [(True, amount)] with [amount > 500]. *)
Theorem refund_result_shape (d : json) (b : bool) (am : option pyfloat) :
  check_refund_amount d = Ok (b, am) ->
  (b = false /\ am = None) \/
  (b = true /\ exists a, am = Some a /\ float_gt_int a MAX_REFUND_AMOUNT = true).
Proof.
  intros H. destruct b.
  - right. split; [reflexivity|].
    destruct (refund_loop_true _ _ _ H) as (kvs & f & v & a & _ & _ & _ & _ & Hg & ->).
    exists a. split; [reflexivity | exact Hg].
  - left. split; [reflexivity | exact (refund_loop_false _ _ _ H)].
Qed.

Lemma refund_result_shape_witness :
  check_refund_amount (JObj [("amount", JStr "1e3")]) = Ok (true, Some (PFin 1000)) /\
  (true = false /\ Some (PFin 1000) = None \/
   true = true /\ exists a, Some (PFin 1000) = Some a /\ float_gt_int a MAX_REFUND_AMOUNT = true).
Proof.
  assert (H : check_refund_amount (JObj [("amount", JStr "1e3")]) = Ok (true, Some (PFin 1000)))
    by (vm_compute; reflexivity).
  split; [exact H | exact (refund_result_shape _ _ _ H)].
Defined.

Lemma py_float_overflow (v : json) :
  py_float v = Raise OverflowError -> exists z, v = JInt z /\ int_to_float z = Raise OverflowError.
Proof.
  destruct v; simpl; intros H; try discriminate H.
  - exists z. split; [reflexivity | exact H].
  - destruct (float_of_str s); discriminate H.
Qed.

(** On a dictionary the refund check can only fail with [OverflowError],
    from a candidate field holding an [int] outside the double range. *)
Theorem refund_dict_raises_only_overflow (kvs : list (string * json)) (e : exn) :
  check_refund_amount (JObj kvs) = Raise e ->
  e = OverflowError /\
  exists f z, In f refund_fields /\ lookup kvs f = Some (JInt z) /\
    int_to_float z = Raise OverflowError.
Proof.
  unfold check_refund_amount. generalize refund_fields as fields.
  induction fields as [|f rest IH]; intros H; [discriminate H|].
  rewrite refund_loop_obj_cons in H.
  assert (Hrest : refund_loop (JObj kvs) rest = Raise e ->
    e = OverflowError /\ exists g z, In g (f :: rest) /\ lookup kvs g = Some (JInt z) /\
      int_to_float z = Raise OverflowError).
  { intros Hr. destruct (IH Hr) as (He & g & z & Hg & Hl & Hz).
    split; [exact He|]. exists g, z. split; [right; exact Hg | split; assumption]. }
  destruct (lookup kvs f) as [v|] eqn:Hl; [|exact (Hrest H)].
  destruct (py_float v) as [a|[]] eqn:Hf; try exact (Hrest H).
  - destruct (float_gt_int a MAX_REFUND_AMOUNT); [discriminate H | exact (Hrest H)].
  - injection H as <-. split; [reflexivity|].
    destruct (py_float_overflow v Hf) as (z & -> & Hz).
    exists f, z. split; [left; reflexivity | split; [exact Hl | exact Hz]].
  - exfalso. exact (py_float_not_keyerror v Hf).
Qed.

Lemma refund_dict_raises_only_overflow_witness :
  check_refund_amount (JObj [("amount", JInt (- 10 ^ 400))]) = Raise OverflowError /\
  (OverflowError = OverflowError /\
   exists f z, In f refund_fields /\ lookup [("amount", JInt (- 10 ^ 400))] f = Some (JInt z) /\
     int_to_float z = Raise OverflowError).
Proof.
  assert (H : check_refund_amount (JObj [("amount", JInt (- 10 ^ 400))]) = Raise OverflowError)
    by (vm_compute; reflexivity).
  split; [exact H | exact (refund_dict_raises_only_overflow _ _ H)].
Defined.

(** Only the three candidate keys of a dictionary matter to the refund
    check: dictionaries that agree on them (other keys, their order and
    their values aside) get the same result. *)
Theorem refund_only_candidate_keys (kvs1 kvs2 : list (string * json)) :
  (forall f, In f refund_fields -> lookup kvs1 f = lookup kvs2 f) ->
  check_refund_amount (JObj kvs1) = check_refund_amount (JObj kvs2).
Proof.
  unfold check_refund_amount. generalize refund_fields as fields.
  induction fields as [|f rest IH]; intros H; [reflexivity|].
  rewrite !refund_loop_obj_cons, (H f (or_introl eq_refl)).
  rewrite (IH (fun g Hg => H g (or_intror Hg))). reflexivity.
Qed.

Lemma refund_only_candidate_keys_witness :
  check_refund_amount (JObj [("note", JStr "x"); ("refund", JInt 900); ("amount", JInt 1)])
  = check_refund_amount (JObj [("amount", JInt 1); ("refund", JInt 900)]).
Proof.
  apply refund_only_candidate_keys.
  intros f Hf. repeat (destruct Hf as [<- | Hf]; [reflexivity|]). contradiction.
Defined.



(** The repository's [run_tests] suite passes: all its assertions hold. *)
Theorem run_tests_pass (float_repr : pyfloat -> string) : run_tests float_repr = Passed.
Proof. vm_compute. reflexivity. Qed.

(* ------------------------------------------------------------------ *)
(** ** [kill_process_on_port] *)








